(** * gopher-lua: the value representation of [value.go]

    A shallow embedding of the Lua value model of [value.go]: the type tags
    ([LValueType]), the [LValue] interface with its nine implementations,
    the truthiness and coercion helpers ([LVIsFalse], [LVAsBool],
    [LVAsString], [LVCanConvToString], [LVAsNumber]) and the two
    [fmt.Formatter] implementations ([LString.Format], [LNumber.Format]).

    Conventions.
    - A Go pointer is a [Ptr]: [Null] or an address.  An [LValue] is a
      non-nil interface value; two of them are compared as Go compares
      interface values: same dynamic type and equal payloads, pointers by
      address, numbers by IEEE-754 comparison.
    - [LNumber] is a binary64 float (Rocq's primitive floats).
    - Functions of the package that live outside [value.go] ([isInteger],
      [parseNumber], [defaultFormat]) and the host library ([fmt]) are
      parameters of the section that holds the embedding. *)

From Stdlib Require Import ZArith Floats Ascii String List Lia.
From Stdlib Require Import DecimalString DecimalPos DecimalZ.
From Stdlib Require HexadecimalString HexadecimalPos.
From stdpp Require Import gmap strings.

Local Open Scope Z_scope.

(** ** Host-language values *)

(** A pointer: Go's [nil] or the address of an allocated object. *)
Inductive Ptr : Type :=
| Null
| Addr (a : positive).

Definition Ptr_eqb (p q : Ptr) : bool :=
  match p, q with
  | Null, Null => true
  | Addr a, Addr b => Pos.eqb a b
  | _, _ => false
  end.

(** A [rune] is a Unicode code point (Go's [int32]). *)
Definition rune : Type := Z.

Definition rune_of (a : ascii) : rune := Z.of_N (N_of_ascii a).

(** [verb_in c l]: the rune [c] is one of the character constants [l];
    the test a [case 'a', 'b':] clause of a [switch c] performs. *)
Definition verb_in (c : rune) (l : list ascii) : bool :=
  existsb (fun a => Z.eqb c (rune_of a)) l.

(** Go's [error] values, by their message. *)
Definition error : Type := string.

(** ** Type tags: [type LValueType int] and its constants *)

Definition LValueType : Type := Z.

Definition LTNil : LValueType := 0.
Definition LTBool : LValueType := 1.
Definition LTNumber : LValueType := 2.
Definition LTString : LValueType := 3.
Definition LTFunction : LValueType := 4.
Definition LTUserData : LValueType := 5.
Definition LTThread : LValueType := 6.
Definition LTTable : LValueType := 7.
Definition LTChannel : LValueType := 8.
Definition LTObject : LValueType := 9.

(** The constants of the [const ( ... iota ... )] block, in declaration
    order. *)
Definition LValueTypes : list LValueType :=
  [LTNil; LTBool; LTNumber; LTString; LTFunction; LTUserData; LTThread;
   LTTable; LTChannel; LTObject].

(** The nine tags the spec enumerates for the Value union. *)
Definition nine_tags : list LValueType :=
  [LTNil; LTBool; LTNumber; LTString; LTFunction; LTUserData; LTThread;
   LTTable; LTChannel].

Definition lValueNames : list string :=
  ["nil"; "boolean"; "number"; "string"; "function"; "userdata"; "thread";
   "table"; "channel"; "object"]%string.

(** [func (vt LValueType) String() string]: indexing the array out of
    range panics, which is [None] here. *)
Definition LValueType_String (vt : LValueType) : option string :=
  if vt <? 0 then None else lValueNames !! Z.to_nat vt.

(** ** Values *)

(** Modelled from the spec: the declaration of [LNumber] is not in
    [value.go]; section 4.3 says a Number is stored as a double-precision
    value, and the code converts it with [float64(nm)] and [int64(nm)]. *)
Definition LNumber : Type := float.

(** An [LValue] interface value holding one of the nine implementations of
    [value.go], tagged by its dynamic type. *)
Inductive LValue : Type :=
| VNil (p : Ptr)        (* *LNilType *)
| VBool (b : bool)      (* LBool *)
| VNumber (n : LNumber) (* LNumber *)
| VString (s : string)  (* LString *)
| VTable (p : Ptr)      (* *LTable *)
| VFunction (p : Ptr)   (* *LFunction *)
| VState (p : Ptr)      (* *LState *)
| VUserData (p : Ptr)   (* *LUserData *)
| VChannel (p : Ptr).   (* LChannel *)

(** [var LNil = LValue(&LNilType{})]: the one allocated nil object; its
    address is fixed when the package is initialised. *)
Definition LNil_addr : positive := 1%positive.
Definition LNil : LValue := VNil (Addr LNil_addr).

Definition LTrue : LValue := VBool true.
Definition LFalse : LValue := VBool false.

(** Go's [==] on two interface values: identical dynamic types and equal
    payloads. *)
Definition LValue_eqb (v w : LValue) : bool :=
  match v, w with
  | VNil p, VNil q => Ptr_eqb p q
  | VBool a, VBool b => Bool.eqb a b
  | VNumber a, VNumber b => PrimFloat.eqb a b
  | VString a, VString b => String.eqb a b
  | VTable p, VTable q => Ptr_eqb p q
  | VFunction p, VFunction q => Ptr_eqb p q
  | VState p, VState q => Ptr_eqb p q
  | VUserData p, VUserData q => Ptr_eqb p q
  | VChannel p, VChannel q => Ptr_eqb p q
  | _, _ => false
  end.

(** ** The store: objects behind the pointers *)

(** [type LTable struct].  The map with interface keys is an association
    list under [LValue_eqb]. *)
Record LTable : Type := mkLTable {
  Metatable : LValue;
  array : list LValue;
  dict : list (LValue * LValue);
  strdict : gmap string LValue;
  keys : list LValue;
  k2i : list (LValue * Z)
}.

(** [type LUserData struct]; the host payload [Value interface{}] is kept
    as an opaque token. *)
Record LUserData : Type := mkLUserData {
  ud_Value : Z;
  ud_Env : Ptr;
  ud_Metatable : LValue
}.

(** The allocated tables and userdata.  [LFunction], [LState] and channel
    objects are never dereferenced by [value.go], so a pointer is all that
    is kept of them. *)
Record Store : Type := mkStore {
  tables : gmap positive LTable;
  userdatas : gmap positive LUserData
}.

(** ** Operands handed to [fmt] *)

(** The [interface{}] argument of [fmt.Sprint] and [defaultFormat], by its
    dynamic type. *)
Inductive fmt_operand : Type :=
| OpInt64 (i : Z)
| OpFloat64 (x : float)
| OpString (s : string)
| OpLNumber (n : LNumber).

Definition int64_min : Z := - 2 ^ 63.
Definition int64_max : Z := 2 ^ 63 - 1.

Definition in_int64 (z : Z) : bool := (int64_min <=? z) && (z <=? int64_max).

(** The integer part of a float, truncated toward zero; [None] for NaN and
    the infinities. *)
Definition SF_trunc (x : spec_float) : option Z :=
  match x with
  | S754_zero _ => Some 0
  | S754_finite s m e =>
      let mag := if 0 <=? e then Z.pos m * 2 ^ e else Z.pos m / 2 ^ (- e) in
      Some (if s then - mag else mag)
  | _ => None
  end.

(** [float64(i)] for an integer [i]: the nearest double, ties to even. *)
Definition float64_of_Z (z : Z) : float :=
  SF2Prim (binary_normalize prec emax z 0 false).

(** [fmt.Sprint(i)] for an [int64]: the decimal digits, with a minus sign
    for a negative number. *)
Definition Sprint_int64 (i : Z) : string :=
  NilZero.string_of_int (Z.to_int i).




(** The eight tags other than [LTFunction]. *)
Definition non_function_tags : list LValueType :=
  [LTNil; LTBool; LTNumber; LTString; LTUserData; LTThread; LTTable;
   LTChannel].

(** The sixteen verbs [LNumber.Format] names in its [case] clauses. *)
Definition number_verbs : list ascii :=
  ["q"; "s"; "b"; "c"; "d"; "o"; "x"; "X"; "U"; "e"; "E"; "f"; "F"; "g";
   "G"; "i"]%char.

(** The pointer behind a value of one of the five reference kinds (table,
    function, thread, userdata, channel); [None] for the scalar kinds. *)
Definition reference_pointer (v : LValue) : option Ptr :=
  match v with
  | VTable p | VFunction p | VState p | VUserData p | VChannel p => Some p
  | VNil _ | VBool _ | VNumber _ | VString _ => None
  end.

(** ** The parts of the package outside [value.go], from the spec *)

Module SpecModel.

(** Modelled from the spec: [isInteger] is not in [value.go].  Sections 3
    and 4.3: the integer predicate holds when the value has no fractional
    component and lies within the exactly-representable integer range of
    double precision, that is, it equals its own integer part and that
    part is at most [2^53] in magnitude. *)
Definition isInteger (v : LNumber) : bool :=
  match SF_trunc (Prim2SF v) with
  | Some z => (Z.abs z <=? 2 ^ 53) && PrimFloat.eqb v (float64_of_Z z)
  | None => false
  end.

(** The nearest double to [(-1)^neg * n * 10^k], ties to even.  For a
    negative [k] the quotient is taken with many more bits than a double
    keeps and a sticky bit records an inexact division. *)
Definition round_decimal (neg : bool) (n : N) (k : Z) : float :=
  let sign (m : Z) := if neg then - m else m in
  if (n =? 0)%N then (if neg then (-0)%float else 0%float)
  else if 0 <=? k then
    SF2Prim (binary_normalize prec emax (sign (Z.of_N n * 10 ^ k)) 0 false)
  else
    let D := 10 ^ (- k) in
    let s := Z.log2 D + 1100 in
    let num := Z.of_N n * 2 ^ s in
    let sticky := if num mod D =? 0 then 0 else 1 in
    SF2Prim (binary_normalize prec emax
               (sign (2 * (num / D) + sticky)) (- s - 1) false).

(** [split_at c s]: the text before the first [c] in [s], and the text
    after it when there is one. *)
Fixpoint split_at (c : ascii) (s : string) : string * option string :=
  match s with
  | EmptyString => (EmptyString, None)
  | String a s' =>
      if Ascii.eqb a c then (EmptyString, Some s')
      else let '(pre, post) := split_at c s' in (String a pre, post)
  end.

(** Decimal digits, possibly none. *)
Definition digits_opt (s : string) : option Decimal.uint :=
  match s with
  | EmptyString => Some Decimal.Nil
  | _ => NilZero.uint_of_string s
  end.

(** A signed decimal exponent: [12], [+12] or [-12]. *)
Definition parse_exponent (s : string) : option Z :=
  match s with
  | String "+" s' => option_map (fun d => Z.of_N (N.of_uint d)) (NilZero.uint_of_string s')
  | _ => option_map Z.of_int (NilZero.int_of_string s)
  end.

(** An unsigned decimal float: digits with an optional fraction and an
    optional exponent, at least one digit in the mantissa. *)
Definition parse_decimal_float (neg : bool) (s : string) : option float :=
  let '(mant, ex) :=
    match split_at "e" s with
    | (m, Some e) => (m, Some e)
    | (_, None) => split_at "E" s
    end in
  let '(ip, fp) := split_at "." mant in
  let fp := match fp with Some t => t | None => EmptyString end in
  match digits_opt ip, digits_opt fp with
  | Some di, Some df =>
      if (String.length ip + String.length fp =? 0)%nat then None
      else
        let n := N.of_uint (Decimal.app di df) in
        let frac := Z.of_nat (String.length fp) in
        match ex with
        | None => Some (round_decimal neg n (- frac))
        | Some e =>
            match parse_exponent e with
            | Some x => Some (round_decimal neg n (x - frac))
            | None => None
            end
        end
  | _, _ => None
  end.

(** A hexadecimal integer: [0x] or [0X] and at least one digit. *)
Definition parse_hex (neg : bool) (s : string) : option float :=
  match s with
  | String "0" (String x h) =>
      if Ascii.eqb x "x" || Ascii.eqb x "X" then
        match HexadecimalString.NilZero.uint_of_string h with
        | Some d =>
            let z := Z.of_N (N.of_hex_uint d) in
            Some (if (z =? 0) && neg then (-0)%float
                  else float64_of_Z (if neg then - z else z))
        | None => None
        end
      else None
  | _ => None
  end.

(** The numeric literal grammar of section 4.3: decimal integers,
    hexadecimal integers, decimal floats with optional exponent, each with
    an optional minus sign. *)
Definition parse_literal (s : string) : option float :=
  match NilZero.int_of_string s with
  | Some d => Some (float64_of_Z (Z.of_int d))
  | None =>
      let '(neg, body) :=
        match s with
        | String "-" s' => (true, s')
        | _ => (false, s)
        end in
      match parse_hex neg body with
      | Some x => Some x
      | None => parse_decimal_float neg body
      end
  end.

(** Modelled from the spec: [parseNumber] is not in [value.go].  Section
    4.3: it accepts the numeric literal grammar and fails with a parse
    error ([NumberFormat], section 7) for any other text. *)
Definition parseNumber (s : string) : LNumber * option error :=
  match parse_literal s with
  | Some x => (x, None)
  | None => (0%float, Some "NumberFormat"%string)
  end.

(** Modelled from the spec: the metatable-driven lookup of section 4.2,
    which section 4.1 names as the route of [index] for values that carry
    a metatable.  [get] on a missing key looks at the metatable's
    index-fallback entry: a callable is invoked with (table, key), another
    table is searched in turn, anything else gives Nil; the chain is cut
    at a fixed depth. *)
Section MetatableLookup.

(** Calling a function value is the interpreter's business. *)
Variable call : Store -> Ptr -> LValue -> string -> LValue.

Definition raw_get (sigma : Store) (t : Ptr) (key : string) : LValue :=
  match t with
  | Addr a =>
      match tables sigma !! a with
      | Some tb => default LNil (strdict tb !! key)
      | None => LNil
      end
  | Null => LNil
  end.

Definition metatable_of (sigma : Store) (v : LValue) : LValue :=
  match v with
  | VTable (Addr a) =>
      match tables sigma !! a with
      | Some tb => Metatable tb
      | None => LNil
      end
  | VUserData (Addr a) =>
      match userdatas sigma !! a with
      | Some ud => ud_Metatable ud
      | None => LNil
      end
  | _ => LNil
  end.

Definition index_fallback_entry (sigma : Store) (mt : LValue) : LValue :=
  match mt with
  | VTable m => raw_get sigma m "__index"
  | _ => LNil
  end.

Fixpoint get (depth : nat) (sigma : Store) (v : LValue) (key : string)
    : LValue :=
  let raw := match v with VTable t => raw_get sigma t key | _ => LNil end in
  if LValue_eqb raw LNil then
    match index_fallback_entry sigma (metatable_of sigma v) with
    | VFunction fn => call sigma fn v key
    | VTable t' =>
        match depth with
        | O => LNil
        | S d => get d sigma (VTable t') key
        end
    | _ => LNil
    end
  else raw.

(** A value carries a metatable when its [Metatable] field holds a
    table. *)
Definition carries_metatable (sigma : Store) (v : LValue) : bool :=
  match metatable_of sigma v with
  | VTable (Addr _) => true
  | _ => false
  end.

End MetatableLookup.

(** Sample host behaviour for concrete runs.  [FormatFloat_b] is a float
    formatter (the form of Go's verb [b]: decimal mantissa, [p], binary
    exponent); [int64_saturating_low] answers the smallest [int64] for a
    float that has no [int64] value, as amd64 does. *)
Definition FormatFloat_b (x : float) : string :=
  match Prim2SF x with
  | S754_zero s => (if s then "-0p-1074" else "0p-1074")
  | S754_infinity s => (if s then "-Inf" else "+Inf")
  | S754_nan => "NaN"
  | S754_finite s m e =>
      (if s then "-" else "") ++ Sprint_int64 (Z.pos m) ++ "p"
      ++ (if (0 <=? e)%Z then "+" else "") ++ Sprint_int64 e
  end%string.

Definition int64_saturating_low (x : float) : Z := int64_min.

(** A pointer formatter for concrete runs, in the form of Go's [%p]: [0x]
    and the address in lower-case hexadecimal, [0x0] for [nil]. *)
Definition Sprintf_p_hex (p : Ptr) : string :=
  match p with
  | Null => "0x0"
  | Addr a =>
      "0x" ++ HexadecimalString.NilZero.string_of_uint (Pos.to_hex_uint a)
  end%string.

(** A formatter state that records what it is asked to print: each
    [defaultFormat(v, f, c)] appends the operand and the verb. *)
Definition Trace : Type := list (fmt_operand * rune).

Definition record_format (v : fmt_operand) (f : Trace) (c : rune) : Trace :=
  f ++ [(v, c)].

(** A store in which table 1 has table 2 as metatable, whose index-fallback
    entry is table 3, which maps [x] to a string. *)
Definition sample_store : Store :=
  mkStore
    (<[1%positive := mkLTable (VTable (Addr 2)) [] [] ∅ [] []]>
     (<[2%positive :=
          mkLTable LNil [] [] {["__index"%string := VTable (Addr 3)]}
            [VString "__index"] [(VString "__index", 0)]]>
      (<[3%positive :=
           mkLTable LNil [] [] {["x"%string := VString "v"]}
             [VString "x"] [(VString "x", 0)]]> ∅)))
    ∅.

End SpecModel.

(** ** The methods and helpers of [value.go] *)

Section Value.

(** [isInteger] and [parseNumber] are defined elsewhere in the package;
    [parseNumber] returns a number together with an error, [None] for Go's
    [nil] error. *)
Variable isInteger : LNumber -> bool.
Variable parseNumber : string -> LNumber * option error.

(** [fmt.State] and the package's [defaultFormat(v, f, c)], which prints
    [v] into [f] under the verb [c]. *)
Variable State : Type.
Variable defaultFormat : fmt_operand -> State -> rune -> State.

(** Host library: [fmt.Sprint] of a [float64], [%p] of a pointer, and what
    [int64(x)] yields when [x] has no [int64] value (the language leaves
    that result to the implementation). *)
Variable Sprint_float64 : float -> string.
Variable Sprintf_p : Ptr -> string.
Variable int64_unrepresentable : float -> Z.

Definition int64_of_float (x : float) : Z :=
  match SF_trunc (Prim2SF x) with
  | Some z => if in_int64 z then z else int64_unrepresentable x
  | None => int64_unrepresentable x
  end.

(** [func LVIsFalse(v LValue) bool { return v == LNil || v == LFalse }] *)
Definition LVIsFalse (v : LValue) : bool :=
  LValue_eqb v LNil || LValue_eqb v LFalse.

(** [func LVAsBool(v LValue) bool { return v != LNil && v != LFalse }] *)
Definition LVAsBool (v : LValue) : bool :=
  negb (LValue_eqb v LNil) && negb (LValue_eqb v LFalse).

(** [func (nm LNumber) String() string] *)
Definition LNumber_String (nm : LNumber) : string :=
  if isInteger nm then Sprint_int64 (int64_of_float nm)
  else Sprint_float64 nm.

(** The [String()] method of each implementation. *)
Definition LValue_String (v : LValue) : string :=
  match v with
  | VNil _ => "nil"
  | VBool bl => if bl then "true" else "false"
  | VNumber nm => LNumber_String nm
  | VString st => st
  | VTable tb => "table: " ++ Sprintf_p tb
  | VFunction fn => "function: " ++ Sprintf_p fn
  | VState ls => "thread: " ++ Sprintf_p ls
  | VUserData ud => "userdata: " ++ Sprintf_p ud
  | VChannel ch => "channel: " ++ Sprintf_p ch
  end%string.

(** The [Type()] method of each implementation. *)
Definition LValue_Type (v : LValue) : LValueType :=
  match v with
  | VNil _ => LTNil
  | VBool _ => LTBool
  | VNumber _ => LTNumber
  | VString _ => LTString
  | VTable _ => LTTable
  | VFunction _ => LTFunction
  | VState _ => LTThread
  | VUserData _ => LTUserData
  | VChannel _ => LTChannel
  end.

(** The [AssertFunction()] method of each implementation: a
    [*LFunction] and a flag. *)
Definition LValue_AssertFunction (v : LValue) : Ptr * bool :=
  match v with
  | VFunction fn => (fn, true)
  | VNil _ | VBool _ | VNumber _ | VString _ | VTable _ | VState _
  | VUserData _ | VChannel _ => (Null, false)
  end.

(** The [Index(L, key)] method of each implementation.  Every body is
    [switch key { default: return LNil }]; the store and the thread [L]
    are in reach of the method and are not read. *)
Definition LValue_Index (sigma : Store) (v : LValue) (L : Ptr)
    (key : string) : LValue :=
  match v with
  | VNil _ => LNil
  | VBool _ => LNil
  | VString _ => LNil
  | VNumber _ => LNil
  | VTable _ => LNil
  | VFunction _ => LNil
  | VState _ => LNil
  | VUserData _ => LNil
  | VChannel _ => LNil
  end.

(** [func LVAsString(v LValue) string] *)
Definition LVAsString (v : LValue) : string :=
  match v with
  | VString _ | VNumber _ => LValue_String v
  | _ => ""%string
  end.

(** [func LVCanConvToString(v LValue) bool] *)
Definition LVCanConvToString (v : LValue) : bool :=
  match v with
  | VString _ | VNumber _ => true
  | _ => false
  end.

(** [func LVAsNumber(v LValue) LNumber] *)
Definition LVAsNumber (v : LValue) : LNumber :=
  match v with
  | VNumber lv => lv
  | VString lv =>
      match parseNumber lv with
      | (num, None) => num
      | (_, Some _) => 0%float
      end
  | _ => 0%float
  end.

(** [func (st LString) Format(f fmt.State, c rune)] *)
Definition LString_Format (st : string) (f : State) (c : rune) : State :=
  if verb_in c ["d"; "i"]%char then
    match parseNumber st with
    | (nm, Some _) => defaultFormat (OpLNumber nm) f (rune_of "d")
    | (_, None) => defaultFormat (OpString st) f (rune_of "s")
    end
  else defaultFormat (OpString st) f c.

(** [func (nm LNumber) Format(f fmt.State, c rune)] *)
Definition LNumber_Format (nm : LNumber) (f : State) (c : rune) : State :=
  if verb_in c ["q"; "s"]%char then
    defaultFormat (OpString (LNumber_String nm)) f c
  else if verb_in c ["b"; "c"; "d"; "o"; "x"; "X"; "U"]%char then
    defaultFormat (OpInt64 (int64_of_float nm)) f c
  else if verb_in c ["e"; "E"; "f"; "F"; "g"; "G"]%char then
    defaultFormat (OpFloat64 nm) f c
  else if verb_in c ["i"]%char then
    defaultFormat (OpInt64 (int64_of_float nm)) f (rune_of "d")
  else if isInteger nm then
    defaultFormat (OpInt64 (int64_of_float nm)) f c
  else
    defaultFormat (OpFloat64 nm) f c.

(** ** Properties that depend on the package's other functions *)




(** X1: [LVCanConvToString] holds exactly for Numbers and Strings, and
    [LVAsString] is the value's own [String()] for those and the empty
    string for every other kind. *)
Theorem LVAsString_numbers_and_strings (v : LValue) :
  (LVCanConvToString v = true <->
   LValue_Type v = LTNumber \/ LValue_Type v = LTString) /\
  LVAsString v =
    (if LVCanConvToString v then LValue_String v else EmptyString).
Proof.
  destruct v; simpl; (split; [| reflexivity]); split;
    try discriminate; try reflexivity; try (intros [H|H]; discriminate);
    intros _; [now left | now right].
Qed.

(** C4: [LVAsNumber] returns a Number unchanged, returns the parsed number
    for a String that [parseNumber] accepts, and returns 0 for a String it
    rejects and for every value that is neither Number nor String. *)
Theorem LVAsNumber_coercion :
  (forall n : LNumber, LVAsNumber (VNumber n) = n) /\
  (forall (s : string) (num : LNumber),
      parseNumber s = (num, None) -> LVAsNumber (VString s) = num) /\
  (forall (s : string) (num : LNumber) (err : error),
      parseNumber s = (num, Some err) ->
      LVAsNumber (VString s) = 0%float) /\
  (forall v : LValue,
      LValue_Type v <> LTNumber -> LValue_Type v <> LTString ->
      LVAsNumber v = 0%float).
Proof.
  repeat split.
  - intros s num H. simpl. now rewrite H.
  - intros s num err H. simpl. now rewrite H.
  - intros v Hn Hs. destruct v; simpl in *; congruence.
Qed.


(** Case analysis on membership in a literal list: one goal per element. *)
Ltac in_cases H :=
  simpl in H;
  repeat (destruct H as [<- | H]; [reflexivity |]);
  destruct H.

Lemma verb_in_cons (c : rune) (a : ascii) (l : list ascii) :
  verb_in c (a :: l) = (c =? rune_of a) || verb_in c l.
Proof. reflexivity. Qed.

(** [LString.Format] under the verbs [d] and [i]: the branch taken when
    [parseNumber] reports an error prints the number it returned under
    [d]; the branch taken when it reports none prints the text under
    [s]. *)
Lemma LString_Format_d_i (st : string) (f : State) (c : rune) :
  verb_in c ["d"; "i"]%char = true ->
  LString_Format st f c =
    match parseNumber st with
    | (nm, Some _) => defaultFormat (OpLNumber nm) f (rune_of "d")
    | (_, None) => defaultFormat (OpString st) f (rune_of "s")
    end.
Proof. intros H. unfold LString_Format. now rewrite H. Qed.


(** C8: [LNumber.Format] by verb.  [d], [b], [c], [o], [x], [X], [U] print
    the [int64] truncation under the verb itself and [i] prints it under
    [d]; [e], [E], [f], [F], [g], [G] print the float; [q] and [s] print
    the canonical text; any other verb prints the [int64] form when the
    integer predicate holds and the float otherwise. *)
Theorem LNumber_Format_dispatch (nm : LNumber) (f : State) :
  (forall a : ascii, In a ["d"; "b"; "c"; "o"; "x"; "X"; "U"]%char ->
     LNumber_Format nm f (rune_of a) =
       defaultFormat (OpInt64 (int64_of_float nm)) f (rune_of a)) /\
  LNumber_Format nm f (rune_of "i") =
    defaultFormat (OpInt64 (int64_of_float nm)) f (rune_of "d") /\
  (forall a : ascii, In a ["e"; "E"; "f"; "F"; "g"; "G"]%char ->
     LNumber_Format nm f (rune_of a) =
       defaultFormat (OpFloat64 nm) f (rune_of a)) /\
  (forall a : ascii, In a ["q"; "s"]%char ->
     LNumber_Format nm f (rune_of a) =
       defaultFormat (OpString (LNumber_String nm)) f (rune_of a)) /\
  (forall c : rune, verb_in c number_verbs = false ->
     LNumber_Format nm f c =
       if isInteger nm
       then defaultFormat (OpInt64 (int64_of_float nm)) f c
       else defaultFormat (OpFloat64 nm) f c).
Proof.
  split; [| split; [| split; [| split]]].
  - intros a Ha. in_cases Ha.
  - reflexivity.
  - intros a Ha. in_cases Ha.
  - intros a Ha. in_cases Ha.
  - intros c Hc. unfold number_verbs in Hc.
    repeat (rewrite verb_in_cons in Hc; apply orb_false_iff in Hc;
            destruct Hc as [? Hc]).
    unfold LNumber_Format.
    repeat (rewrite verb_in_cons).
    repeat match goal with H : (c =? _) = false |- _ => rewrite H; clear H end.
    reflexivity.
Qed.

(** ** How the methods fit together *)

Lemma Sprint_int64_inj (i j : Z) : Sprint_int64 i = Sprint_int64 j -> i = j.
Proof.
  unfold Sprint_int64. intros H.
  assert (Hisi : forall z : Z,
             NilZero.int_of_string (NilZero.string_of_int (Z.to_int z))
             = Some (Z.to_int z)).
  { intros z. apply NilZero.isi; destruct z; simpl; try discriminate;
      intros [= E]; now apply Unsigned.to_uint_nonnil in E. }
  apply (f_equal NilZero.int_of_string) in H. rewrite !Hisi in H.
  injection H as H.
  rewrite <- (DecimalZ.of_to i), <- (DecimalZ.of_to j). now rewrite H.
Qed.

(** X5: [String()] of a table, function, thread, userdata or channel is
    the name [Type().String()] gives its kind, then a colon and a space,
    then the pointer; [String()] of a nil value is the name of its kind. *)
Theorem String_names_its_kind :
  (forall (v : LValue) (p : Ptr),
      reference_pointer v = Some p ->
      exists name : string,
        LValueType_String (LValue_Type v) = Some name /\
        LValue_String v = (name ++ ": " ++ Sprintf_p p)%string) /\
  (forall p : Ptr,
      LValueType_String (LValue_Type (VNil p)) = Some (LValue_String (VNil p))).
Proof.
  split; [| reflexivity].
  intros v p H.
  destruct v; simpl in H; try discriminate; injection H as ->;
    eexists; (split; [reflexivity |]); reflexivity.
Qed.

(** X6: if two values of reference kinds have the same [String()] text,
    they are of the same kind and their pointers print alike; when the
    pointer formatter prints different pointers differently, they are the
    same value. *)
Theorem String_tells_references_apart (v w : LValue) (p q : Ptr) :
  reference_pointer v = Some p ->
  reference_pointer w = Some q ->
  LValue_String v = LValue_String w ->
  LValue_Type v = LValue_Type w /\
  Sprintf_p p = Sprintf_p q /\
  ((forall a b : Ptr, Sprintf_p a = Sprintf_p b -> a = b) -> v = w).
Proof.
  intros Hp Hq H.
  destruct v, w; simpl in Hp, Hq; try discriminate;
    injection Hp as ->; injection Hq as ->;
    cbv beta iota fix delta [LValue_String String.append] in H;
    try discriminate H;
    repeat match type of H with
           | String _ _ = String _ _ => injection H as H
           end;
    (split; [reflexivity |]); (split; [exact H |]);
    intros Hinj; now rewrite (Hinj _ _ H).
Qed.

(** X8: [LNumber.Format] calls [defaultFormat] once, on the state it was
    given; the operand is an [int64], a [float64] or a string, never the
    [LNumber] itself (so [fmt] does not come back into [LNumber.Format]);
    the verb is the one received, except that [i] becomes [d]. *)
Theorem LNumber_Format_single_call (nm : LNumber) (f : State) (c : rune) :
  exists (op : fmt_operand) (c' : rune),
    LNumber_Format nm f c = defaultFormat op f c' /\
    (forall n : LNumber, op <> OpLNumber n) /\
    (c' = c \/ (c = rune_of "i" /\ c' = rune_of "d")).
Proof.
  unfold LNumber_Format.
  destruct (verb_in c ["q"; "s"]%char);
    [eexists; eexists; split; [reflexivity |]; split;
       [discriminate | now left] |].
  destruct (verb_in c ["b"; "c"; "d"; "o"; "x"; "X"; "U"]%char);
    [eexists; eexists; split; [reflexivity |]; split;
       [discriminate | now left] |].
  destruct (verb_in c ["e"; "E"; "f"; "F"; "g"; "G"]%char);
    [eexists; eexists; split; [reflexivity |]; split;
       [discriminate | now left] |].
  destruct (verb_in c ["i"]%char) eqn:Ei.
  - eexists; eexists; split; [reflexivity |]; split; [discriminate |].
    right. split; [| reflexivity].
    rewrite verb_in_cons in Ei. apply orb_true_iff in Ei as [Ei | Ei];
      [now apply Z.eqb_eq in Ei | discriminate Ei].
  - destruct (isInteger nm);
      eexists; eexists; split; try reflexivity; split;
        try discriminate; now left.
Qed.

(** X9: under the text verbs [s] and [q] a Number is formatted exactly as
    its canonical text is when formatted as a String. *)
Theorem text_verbs_agree (nm : LNumber) (f : State) :
  LNumber_Format nm f (rune_of "s") =
    LString_Format (LNumber_String nm) f (rune_of "s") /\
  LNumber_Format nm f (rune_of "q") =
    LString_Format (LNumber_String nm) f (rune_of "q").
Proof. split; reflexivity. Qed.

(** X11: two Numbers whose integer predicate holds and whose canonical
    texts are equal have the same [int64] form. *)
Theorem LNumber_String_injective_on_integers (nm1 nm2 : LNumber) :
  isInteger nm1 = true ->
  isInteger nm2 = true ->
  LNumber_String nm1 = LNumber_String nm2 ->
  int64_of_float nm1 = int64_of_float nm2.
Proof.
  unfold LNumber_String. intros -> ->. apply Sprint_int64_inj.
Qed.

(** X12: with a parser that reads the decimal text of an integer as that
    integer's nearest double, turning an integer-valued Number into a
    string with [LVAsString] and back with [LVAsNumber] gives the double
    of its [int64] form. *)
Theorem LVAsNumber_of_LVAsString_integer (nm : LNumber) :
  (forall z : Z, parseNumber (Sprint_int64 z) = (float64_of_Z z, None)) ->
  isInteger nm = true ->
  LVAsNumber (VString (LVAsString (VNumber nm))) =
    float64_of_Z (int64_of_float nm).
Proof.
  intros Hparse Hint. simpl. unfold LNumber_String.
  now rewrite Hint, Hparse.
Qed.

End Value.

Arguments LString_Format parseNumber {State} defaultFormat st f c.
Arguments LNumber_Format isInteger {State} defaultFormat Sprint_float64
  int64_unrepresentable nm f c.

(** ** Properties of the methods and helpers of the nine kinds *)

Lemma Ptr_eqb_eq (p q : Ptr) : Ptr_eqb p q = true <-> p = q.
Proof.
  destruct p as [|a], q as [|b]; simpl; split; intros H;
    try reflexivity; try discriminate.
  - apply Pos.eqb_eq in H. now subst.
  - injection H as ->. apply Pos.eqb_refl.
Qed.

Lemma LValue_eqb_LNil (v : LValue) : LValue_eqb v LNil = true <-> v = LNil.
Proof.
  unfold LNil. destruct v; simpl; split; intros H; try discriminate.
  - apply Ptr_eqb_eq in H. now subst.
  - injection H as ->. reflexivity.
Qed.

Lemma LValue_eqb_LFalse (v : LValue) :
  LValue_eqb v LFalse = true <-> v = LFalse.
Proof.
  unfold LFalse. destruct v as [| [|] | | | | | | |]; simpl; split;
    intros H; try discriminate; reflexivity.
Qed.

(** C1: [LVIsFalse v] holds exactly when [v] is [LNil] or [LFalse]; every
    other value is truthy, every Number (zero included) and every String
    (the empty one included) among them. *)
Theorem LVIsFalse_iff_nil_or_false :
  (forall v : LValue, LVIsFalse v = true <-> v = LNil \/ v = LFalse) /\
  (forall n : LNumber, LVIsFalse (VNumber n) = false) /\
  LVIsFalse (VNumber 0%float) = false /\
  (forall s : string, LVIsFalse (VString s) = false) /\
  LVIsFalse (VString EmptyString) = false /\
  LVAsBool (VNumber 0%float) = true /\
  LVAsBool (VString EmptyString) = true.
Proof.
  split; [| repeat split; reflexivity].
  intros v. unfold LVIsFalse. rewrite orb_true_iff.
  now rewrite LValue_eqb_LNil, LValue_eqb_LFalse.
Qed.

(** C10: [LVAsBool] is the negation of [LVIsFalse] on every value, so the
    two never agree. *)
Theorem LVAsBool_negates_LVIsFalse (v : LValue) :
  LVAsBool v = negb (LVIsFalse v) /\ LVAsBool v <> LVIsFalse v.
Proof.
  assert (E : LVAsBool v = negb (LVIsFalse v)).
  { unfold LVAsBool, LVIsFalse. now rewrite negb_orb. }
  split; [exact E |].
  rewrite E. now destruct (LVIsFalse v).
Qed.

(** C3: [AssertFunction] returns the receiver and [true] when the value is
    an [*LFunction], and [(nil, false)] for each of the other eight kinds;
    the flag is set exactly for the Function tag. *)
Theorem AssertFunction_only_for_functions (v : LValue) :
  (snd (LValue_AssertFunction v) = true <-> LValue_Type v = LTFunction) /\
  ((exists fn : Ptr, v = VFunction fn /\ LValue_AssertFunction v = (fn, true))
   \/ (In (LValue_Type v) non_function_tags /\
       LValue_AssertFunction v = (Null, false))).
Proof.
  destruct v; simpl; (split; [split; (discriminate || reflexivity) |]);
    try (right; split; [tauto | reflexivity]).
  left. eexists. split; reflexivity.
Qed.

(** C7 (amended): the values of [value.go] come in nine kinds and [Type()]
    returns one of the nine tags Nil, Boolean, Number, String, Function,
    Userdata, Thread, Table, Channel, each of which some value returns;
    the tag set itself has a tenth tag, [LTObject], named "object", which
    no value of these nine kinds returns. *)
Theorem Type_ranges_over_nine_of_ten_tags :
  (forall v : LValue, In (LValue_Type v) nine_tags) /\
  (forall t : LValueType, In t nine_tags -> exists v, LValue_Type v = t) /\
  NoDup nine_tags /\ length nine_tags = 9%nat /\
  LValueTypes = nine_tags ++ [LTObject] /\
  ~ In LTObject nine_tags /\
  LValueType_String LTObject = Some "object"%string /\
  (forall v : LValue, LValue_Type v <> LTObject).
Proof.
  split; [intros v; destruct v; simpl; tauto |].
  split.
  { intros t Ht. simpl in Ht.
    destruct Ht as [<-|[<-|[<-|[<-|[<-|[<-|[<-|[<-|[<-|[]]]]]]]]]].
    - now exists (VNil Null).
    - now exists (VBool true).
    - now exists (VNumber 0%float).
    - now exists (VString EmptyString).
    - now exists (VFunction Null).
    - now exists (VUserData Null).
    - now exists (VState Null).
    - now exists (VTable Null).
    - now exists (VChannel Null). }
  split.
  { unfold nine_tags.
    repeat (constructor; [rewrite ?elem_of_cons, elem_of_nil; intuition discriminate |]).
    constructor. }
  split; [reflexivity |]. split; [reflexivity |].
  split; [simpl; intuition discriminate |].
  split; [reflexivity |].
  intros v; destruct v; discriminate.
Qed.

(** C7, as stated, fails: the tag set declared by the [const] block is not
    contained in the nine tags, [LTObject] is a tenth. *)
Lemma LTObject_is_a_tenth_tag :
  ~ (forall t : LValueType, In t LValueTypes -> In t nine_tags).
Proof.
  intros H.
  assert (F : In LTObject nine_tags).
  { apply H. unfold LValueTypes. simpl. tauto. }
  clear H. simpl in F. intuition discriminate.
Qed.

(** X2: [LValueType.String] names each of the ten declared tags by its entry
    in [lValueNames] and panics (no result) on any other integer. *)
Theorem LValueType_String_names :
  map LValueType_String LValueTypes = map Some lValueNames /\
  (forall t : LValueType, LValueType_String t = None <-> ~ In t LValueTypes).
Proof.
  split; [reflexivity |].
  intros t. unfold LValueType_String. split.
  - destruct (t <? 0) eqn:E.
    + intros _ H. apply Z.ltb_lt in E. simpl in H.
      unfold LTNil, LTBool, LTNumber, LTString, LTFunction, LTUserData,
        LTThread, LTTable, LTChannel, LTObject in H. lia.
    + intros H Hin. simpl in Hin.
      repeat (destruct Hin as [<- | Hin]; [discriminate H |]).
      destruct Hin.
  - intros H. destruct (t <? 0) eqn:E; [reflexivity |].
    apply Z.ltb_ge in E.
    destruct (lValueNames !! Z.to_nat t) eqn:L; [| reflexivity].
    exfalso. apply H.
    apply lookup_lt_Some in L. simpl in L.
    assert (Ht : t = 0 \/ t = 1 \/ t = 2 \/ t = 3 \/ t = 4 \/ t = 5 \/
                 t = 6 \/ t = 7 \/ t = 8 \/ t = 9) by lia.
    simpl. unfold LTNil, LTBool, LTNumber, LTString, LTFunction, LTUserData,
      LTThread, LTTable, LTChannel, LTObject. clear -Ht. intuition.
Qed.

(** C2 (amended): [Index] returns [LNil] for every value of every kind,
    Table, Userdata and Thread included, whatever the store holds (so also
    when a metatable is attached), for every thread and every key. *)
Theorem Index_always_nil (sigma : Store) (v : LValue) (L : Ptr)
    (key : string) :
  LValue_Index sigma v L key = LNil.
Proof. destruct v; reflexivity. Qed.

(** C2, as stated, fails: table 1 of [sample_store] carries a metatable
    whose index-fallback chain resolves [x] to the string "v", and [Index]
    on that table and key is Nil. *)
Lemma Index_ignores_metatable :
  SpecModel.carries_metatable SpecModel.sample_store (VTable (Addr 1)) = true /\
  SpecModel.get (fun _ _ _ _ => LNil) 8 SpecModel.sample_store
    (VTable (Addr 1)) "x" = VString "v" /\
  LValue_Index SpecModel.sample_store (VTable (Addr 1)) Null "x"
    <> SpecModel.get (fun _ _ _ _ => LNil) 8 SpecModel.sample_store
         (VTable (Addr 1)) "x".
Proof.
  assert (E : SpecModel.get (fun _ _ _ _ => LNil) 8 SpecModel.sample_store
                (VTable (Addr 1)) "x" = VString "v") by (vm_compute; reflexivity).
  split; [vm_compute; reflexivity |]. split; [exact E |].
  rewrite E. discriminate.
Qed.

(** ** Tags, names and equality *)

Lemma LValueType_String_range (t : LValueType) (name : string) :
  LValueType_String t = Some name -> 0 <= t <= 9.
Proof.
  unfold LValueType_String. destruct (t <? 0) eqn:E; [discriminate |].
  apply Z.ltb_ge in E. intros H. apply lookup_lt_Some in H. simpl in H. lia.
Qed.

Lemma small_tag_cases (t : Z) :
  0 <= t <= 9 ->
  t = 0 \/ t = 1 \/ t = 2 \/ t = 3 \/ t = 4 \/ t = 5 \/ t = 6 \/ t = 7 \/
  t = 8 \/ t = 9.
Proof. lia. Qed.

(** X4: for every value, [Type().String()] has a result (the index into
    [lValueNames] is in range), and that name is never "object". *)
Theorem Type_String_total (v : LValue) :
  exists name : string,
    LValueType_String (LValue_Type v) = Some name /\
    In name lValueNames /\ name <> "object"%string.
Proof.
  destruct v; eexists; (split; [reflexivity |]);
    (split; [simpl; tauto | discriminate]).
Qed.

(** X7: the names of the tags are pairwise distinct: two tags with the
    same [String()] are the same tag. *)
Theorem LValueType_String_injective (t u : LValueType) (name : string) :
  LValueType_String t = Some name ->
  LValueType_String u = Some name ->
  t = u.
Proof.
  intros Ht Hu.
  pose proof (small_tag_cases t (LValueType_String_range t name Ht)) as Ct.
  pose proof (small_tag_cases u (LValueType_String_range u name Hu)) as Cu.
  destruct Ct as [->|[->|[->|[->|[->|[->|[->|[->|[->| ->]]]]]]]]];
    destruct Cu as [->|[->|[->|[->|[->|[->|[->|[->|[->| ->]]]]]]]]];
    vm_compute in Ht, Hu; congruence.
Qed.

(** X10: two values that Go's [==] finds equal have the same tag and the
    same truthiness. *)
Theorem equal_values_same_tag_and_truth (v w : LValue) :
  LValue_eqb v w = true ->
  LValue_Type v = LValue_Type w /\
  LVIsFalse v = LVIsFalse w /\
  LVAsBool v = LVAsBool w.
Proof.
  intros H.
  destruct v, w; simpl in H; try discriminate H;
    try (apply Ptr_eqb_eq in H; subst);
    try (apply Bool.eqb_prop in H; subst);
    repeat split; reflexivity.
Qed.

(** ** Sample runs *)

(** C7 at the Table tag: it is one of the nine and a value returns it. *)
Lemma Type_ranges_over_nine_of_ten_tags_witness :
  In LTTable nine_tags /\ exists v : LValue, LValue_Type v = LTTable.
Proof.
  assert (H : In LTTable nine_tags) by (simpl; tauto).
  split; [exact H |].
  exact (proj1 (proj2 Type_ranges_over_nine_of_ten_tags) LTTable H).
Defined.

(** C4 at concrete inputs: a Number, a String that parses, a String that
    does not, and a table. *)
Lemma LVAsNumber_coercion_witness :
  LVAsNumber SpecModel.parseNumber (VNumber 7%float) = 7%float /\
  LVAsNumber SpecModel.parseNumber (VString "42") = 42%float /\
  LVAsNumber SpecModel.parseNumber (VString "abc") = 0%float /\
  LVAsNumber SpecModel.parseNumber (VTable (Addr 5)) = 0%float.
Proof.
  destruct (LVAsNumber_coercion SpecModel.parseNumber) as (H1 & H2 & H3 & H4).
  split; [apply H1 |]. split; [apply H2; vm_compute; reflexivity |].
  split; [apply (H3 _ 0%float "NumberFormat"%string); vm_compute; reflexivity |].
  apply H4; discriminate.
Defined.

(** C8 at a concrete Number: 3.5 under [x], [i], [g], [s] and the unlisted
    verb [v]. *)
Lemma LNumber_Format_dispatch_witness :
  let Format :=
    LNumber_Format SpecModel.isInteger SpecModel.record_format
      SpecModel.FormatFloat_b SpecModel.int64_saturating_low in
  Format 3.5%float [] (rune_of "x") = [(OpInt64 3, rune_of "x")] /\
  Format 3.5%float [] (rune_of "i") = [(OpInt64 3, rune_of "d")] /\
  Format 3.5%float [] (rune_of "g") = [(OpFloat64 3.5%float, rune_of "g")] /\
  Format 3.5%float [] (rune_of "s") =
    [(OpString "7881299347898368p-51", rune_of "s")] /\
  Format 3.5%float [] (rune_of "v") = [(OpFloat64 3.5%float, rune_of "v")].
Proof.
  destruct (LNumber_Format_dispatch SpecModel.isInteger SpecModel.Trace
              SpecModel.record_format SpecModel.FormatFloat_b
              SpecModel.int64_saturating_low 3.5%float [])
    as (Hi & Hd & Hf & Hs & Ho).
  cbv zeta.
  split; [rewrite (Hi "x"%char) by (simpl; tauto); vm_compute; reflexivity |].
  split; [rewrite Hd; vm_compute; reflexivity |].
  split; [rewrite (Hf "g"%char) by (simpl; tauto); vm_compute; reflexivity |].
  split; [rewrite (Hs "s"%char) by (simpl; tauto); vm_compute; reflexivity |].
  rewrite Ho by (vm_compute; reflexivity). vm_compute. reflexivity.
Defined.


(** C6 at concrete inputs: under [d], the String "42", which parses, is
    printed as text under [s], and the String "abc", which does not parse,
    is printed as the number 0 under [d]; under [x] nothing is parsed. *)
Theorem LString_Format_branches_swapped :
  SpecModel.parseNumber "42" = (42%float, None) /\
  LString_Format SpecModel.parseNumber SpecModel.record_format
    "42" [] (rune_of "d") = [(OpString "42", rune_of "s")] /\
  snd (SpecModel.parseNumber "abc") <> None /\
  LString_Format SpecModel.parseNumber SpecModel.record_format
    "abc" [] (rune_of "d") = [(OpLNumber 0%float, rune_of "d")] /\
  LString_Format SpecModel.parseNumber SpecModel.record_format
    "42" [] (rune_of "x") = [(OpString "42", rune_of "x")].
Proof.
  split; [vm_compute; reflexivity |].
  split; [vm_compute; reflexivity |].
  split; [vm_compute; discriminate |].
  split; vm_compute; reflexivity.
Qed.

(** ** Sample runs of the composed methods *)

Lemma Sprintf_p_hex_inj (a b : Ptr) :
  SpecModel.Sprintf_p_hex a = SpecModel.Sprintf_p_hex b -> a = b.
Proof.
  assert (Hhex : forall x : positive,
             HexadecimalString.NilZero.uint_of_string
               (HexadecimalString.NilZero.string_of_uint (Pos.to_hex_uint x))
             = Some (Pos.to_hex_uint x)).
  { intros x. apply HexadecimalString.NilZero.usu.
    apply HexadecimalPos.Unsigned.to_uint_nonnil. }
  destruct a as [|x], b as [|y]; intros H; try reflexivity;
    cbv beta iota fix delta [SpecModel.Sprintf_p_hex String.append] in H;
    injection H as H;
    apply (f_equal HexadecimalString.NilZero.uint_of_string) in H;
    rewrite ?Hhex in H.
  - vm_compute in H. injection H as H. symmetry in H.
    now apply HexadecimalPos.Unsigned.to_uint_nonzero in H.
  - vm_compute in H. injection H as H.
    now apply HexadecimalPos.Unsigned.to_uint_nonzero in H.
  - injection H as H.
    now apply HexadecimalPos.Unsigned.to_uint_inj in H as ->.
Qed.

(** X5 at the table at address 255. *)
Lemma String_names_its_kind_witness :
  reference_pointer (VTable (Addr 255)) = Some (Addr 255) /\
  exists name : string,
    LValueType_String (LValue_Type (VTable (Addr 255))) = Some name /\
    LValue_String SpecModel.isInteger SpecModel.FormatFloat_b
      SpecModel.Sprintf_p_hex SpecModel.int64_saturating_low
      (VTable (Addr 255)) = (name ++ ": 0xff")%string.
Proof.
  split; [reflexivity |].
  apply (proj1 (String_names_its_kind SpecModel.isInteger
                  SpecModel.FormatFloat_b SpecModel.Sprintf_p_hex
                  SpecModel.int64_saturating_low)
           (VTable (Addr 255)) (Addr 255)).
  reflexivity.
Defined.

(** X6 at the thread at address 7, compared with itself. *)
Lemma String_tells_references_apart_witness :
  LValue_Type (VState (Addr 7)) = LValue_Type (VState (Addr 7)) /\
  SpecModel.Sprintf_p_hex (Addr 7) = SpecModel.Sprintf_p_hex (Addr 7) /\
  VState (Addr 7) = VState (Addr 7).
Proof.
  destruct (String_tells_references_apart SpecModel.isInteger
              SpecModel.FormatFloat_b SpecModel.Sprintf_p_hex
              SpecModel.int64_saturating_low
              (VState (Addr 7)) (VState (Addr 7)) (Addr 7) (Addr 7)
              eq_refl eq_refl eq_refl) as (Ht & Hp & Hv).
  split; [exact Ht |]. split; [exact Hp |].
  apply Hv. exact Sprintf_p_hex_inj.
Defined.

(** X7 at the Table tag. *)
Lemma LValueType_String_injective_witness :
  LValueType_String LTTable = Some "table"%string /\ LTTable = LTTable.
Proof.
  split; [reflexivity |].
  apply (LValueType_String_injective LTTable LTTable "table");
    reflexivity.
Defined.

(** X10 at the Numbers 0 and -0, which are equal under [==]. *)
Lemma equal_values_same_tag_and_truth_witness :
  LValue_eqb (VNumber 0%float) (VNumber (-0)%float) = true /\
  LValue_Type (VNumber 0%float) = LValue_Type (VNumber (-0)%float) /\
  LVIsFalse (VNumber 0%float) = LVIsFalse (VNumber (-0)%float) /\
  LVAsBool (VNumber 0%float) = LVAsBool (VNumber (-0)%float).
Proof.
  split; [vm_compute; reflexivity |].
  apply (equal_values_same_tag_and_truth (VNumber 0%float)
           (VNumber (-0)%float)).
  vm_compute. reflexivity.
Defined.

(** X11 at the Numbers 0 and -0: both are integer-valued and print as
    the same text. *)
Lemma LNumber_String_injective_on_integers_witness :
  SpecModel.isInteger 0%float = true /\
  SpecModel.isInteger (-0)%float = true /\
  int64_of_float SpecModel.int64_saturating_low 0%float =
    int64_of_float SpecModel.int64_saturating_low (-0)%float.
Proof.
  split; [vm_compute; reflexivity |]. split; [vm_compute; reflexivity |].
  apply (LNumber_String_injective_on_integers SpecModel.isInteger
           SpecModel.FormatFloat_b SpecModel.int64_saturating_low
           0%float (-0)%float); vm_compute; reflexivity.
Defined.

(** ** Round trip of integer-valued Numbers *)





Lemma parseNumber_Sprint_int64 (z : Z) :
  SpecModel.parseNumber (Sprint_int64 z) = (float64_of_Z z, None).
Proof.
  unfold SpecModel.parseNumber, SpecModel.parse_literal, Sprint_int64.
  rewrite NilZero.isi.
  - now rewrite DecimalZ.of_to.
  - destruct z; simpl; try discriminate.
    intros [= E]. now apply Unsigned.to_uint_nonnil in E.
  - destruct z; simpl; try discriminate.
    intros [= E]. now apply Unsigned.to_uint_nonnil in E.
Qed.





(** X12 at the Number -17, with the parser written from the grammar. *)
Lemma LVAsNumber_of_LVAsString_integer_witness :
  SpecModel.isInteger (-17)%float = true /\
  LVAsNumber SpecModel.parseNumber
    (VString
       (LVAsString SpecModel.isInteger SpecModel.FormatFloat_b
          SpecModel.Sprintf_p_hex SpecModel.int64_saturating_low
          (VNumber (-17)%float))) = (-17)%float.
Proof.
  split; [vm_compute; reflexivity |].
  rewrite (LVAsNumber_of_LVAsString_integer SpecModel.isInteger
             SpecModel.parseNumber SpecModel.FormatFloat_b
             SpecModel.Sprintf_p_hex SpecModel.int64_saturating_low
             (-17)%float parseNumber_Sprint_int64)
    by (vm_compute; reflexivity).
  vm_compute. reflexivity.
Defined.
